(** * Genesis block builder (blockchain/blockchain_genesis.cpp)

    A shallow embedding of [blockchain::GenesisBlockBuilder] and of the fund
    descriptors [P2WPKH], [P2WSH] and [Funds], followed by the properties of
    the genesis block that the builder produces.

    Conventions of the embedding:
    - integers of the source ([CAmount] = int64, [std::int32_t],
      [blockchain::Time], [blockchain::Difficulty]) are values of [Z]; this
      translation unit performs no arithmetic on them, so no wrap-around
      occurs in it;
    - byte vectors ([std::vector<std::uint8_t>]) are lists of [Z] in 0..255;
    - a failed [assert] aborts the program: every operation that can reach an
      [assert] returns [None] when it fires;
    - the member functions run in a small state-and-failure monad over the
      builder object, so that what a call does to [*this] is visible in its
      result. *)

From Stdlib Require Import ZArith List String Ascii Bool Lia.
Import ListNotations.
Local Open Scope Z_scope.

(** ** Primitive data *)

Definition bytes := list Z.
Definition CAmount := Z.
Definition Time := Z.
Definition Difficulty := Z.

Fixpoint bytes_eqb (a b : bytes) : bool :=
  match a, b with
  | [], [] => true
  | x :: a', y :: b' => (x =? y) && bytes_eqb a' b'
  | _, _ => false
  end.

(** Fixed-width opaque blobs ([base_blob<BITS>] of uint256.h). *)
Record uint160 := mk_uint160 { data160 : bytes }.
Record uint256 := mk_uint256 { data256 : bytes }.

Definition uint256_eqb (a b : uint256) : bool :=
  bytes_eqb (data256 a) (data256 b).

(** Modelled from the spec: the constant [uint256::zero], declared in
    uint256.h, is "the all-zero 256-bit value". *)
Definition uint256_zero : uint256 := mk_uint256 (repeat 0 32).

(** Modelled from the spec: the blob constructors
    [uint160(const std::vector<unsigned char>&)] and
    [uint256(const std::vector<unsigned char>&)] are defined in uint256.cpp,
    another translation unit.  The spec's data model makes a public-key hash
    "exactly 20 bytes" and a script hash "exactly 32 bytes", a violation
    being "a construction-time failure". *)
Definition uint160_of_vector (vch : bytes) : option uint160 :=
  if (List.length vch =? 20)%nat then Some (mk_uint160 vch) else None.

Definition uint256_of_vector (vch : bytes) : option uint256 :=
  if (List.length vch =? 32)%nat then Some (mk_uint256 vch) else None.

(** [ToByteVector(in)] copies [in.begin() .. in.end()]. *)
Definition ToByteVector (x : uint256) : bytes := data256 x.

(** ** Hex decoding *)

(** The value of one hex digit, either case; [None] for any other
    character. *)
Definition HexDigit (c : ascii) : option Z :=
  let n := Z.of_nat (nat_of_ascii c) in
  if (48 <=? n) && (n <=? 57) then Some (n - 48)
  else if (97 <=? n) && (n <=? 102) then Some (n - 97 + 10)
  else if (65 <=? n) && (n <=? 70) then Some (n - 65 + 10)
  else None.

(** Modelled from the spec: [ParseHex] is defined in utilstrencodings.cpp,
    another translation unit; it "converts a human-readable hex string to raw
    bytes; fails on malformed input".  Two digits make one byte, high nibble
    first. *)
Fixpoint ParseHex (psz : string) : option bytes :=
  match psz with
  | EmptyString => Some []
  | String _ EmptyString => None
  | String c1 (String c2 rest) =>
      match HexDigit c1, HexDigit c2, ParseHex rest with
      | Some hi, Some lo, Some vch => Some (Z.lor (Z.shiftl hi 4) lo :: vch)
      | _, _, _ => None
      end
  end.

(** ** Fund descriptors *)

Record P2WPKH := mk_P2WPKH {
  P2WPKH_amount : CAmount;
  P2WPKH_pub_key_hash : string
}.

Record P2WSH := mk_P2WSH {
  P2WSH_amount : CAmount;
  P2WSH_script_hash : string
}.

Record Funds := mk_Funds { destinations : list P2WPKH }.

(** [P2WPKH::P2WPKH(const CAmount amount, std::string &&pubKeyHash)]. *)
Definition P2WPKH_ctor (amount : CAmount) (pubKeyHash : string) : option P2WPKH :=
  if negb (amount >? 0) then None                               (* assert(amount > 0) *)
  else if negb (String.length pubKeyHash =? 40)%nat then None   (* assert(size() == 40) *)
  else Some (mk_P2WPKH amount pubKeyHash).

(** [P2WSH::P2WSH(const CAmount amount, std::string &&scriptHash)]. *)
Definition P2WSH_ctor (amount : CAmount) (scriptHash : string) : option P2WSH :=
  if negb (amount >? 0) then None                               (* assert(amount > 0) *)
  else if negb (String.length scriptHash =? 64)%nat then None   (* assert(size() == 64) *)
  else Some (mk_P2WSH amount scriptHash).

(** [Funds::Funds(std::initializer_list<P2WPKH> ds)]. *)
Definition Funds_ctor (ds : list P2WPKH) : Funds := mk_Funds ds.

(** ** Transactions and blocks

    The primitives of primitives/transaction.h and primitives/block.h, with
    the fields this translation unit reads or writes. *)

Definition CScript := bytes.

(** The destinations the builder stores in [m_initial_funds]; the remaining
    alternatives of [CTxDestination] are never created here. *)
Inductive CTxDestination :=
| WitnessV0KeyHash (id : uint160)
| WitnessV0ScriptHash (id : uint256).

Inductive TxType := REGULAR | COINBASE.

Module COutPoint.
Record t := mk {
  hash : uint256;
  n : Z
}.
End COutPoint.

(** [std::numeric_limits<decltype(prevout.n)>::max()], the index being a
    32-bit unsigned integer. *)
Definition prevout_n_max : Z := 2 ^ 32 - 1.

(** The canonical null reference: zero hash, maximum index. *)
Definition COutPoint_null : COutPoint.t := COutPoint.mk uint256_zero prevout_n_max.

Record CTxIn := mk_CTxIn {
  prevout : COutPoint.t;
  scriptSig : CScript
}.

Record CTxOut := mk_CTxOut {
  nValue : CAmount;
  scriptPubKey : CScript
}.

Record CMutableTransaction := mk_CMutableTransaction {
  tx_version : Z;
  tx_type : TxType;
  vin : list CTxIn;
  vout : list CTxOut
}.

(** [CTransactionRef]: a shared pointer to an immutable copy of the mutable
    transaction; the copy has the same fields. *)
Definition CTransactionRef := CMutableTransaction.
Definition MakeTransactionRef (tx : CMutableTransaction) : CTransactionRef := tx.

Definition CMutableTransaction_new : CMutableTransaction :=
  mk_CMutableTransaction 0 REGULAR [] [].

Definition tx_SetVersion (v : Z) (tx : CMutableTransaction) : CMutableTransaction :=
  mk_CMutableTransaction v (tx_type tx) (vin tx) (vout tx).

Definition tx_SetType (t : TxType) (tx : CMutableTransaction) : CMutableTransaction :=
  mk_CMutableTransaction (tx_version tx) t (vin tx) (vout tx).

Definition tx_set_vin (v : list CTxIn) (tx : CMutableTransaction) : CMutableTransaction :=
  mk_CMutableTransaction (tx_version tx) (tx_type tx) v (vout tx).

Definition tx_set_vout (v : list CTxOut) (tx : CMutableTransaction) : CMutableTransaction :=
  mk_CMutableTransaction (tx_version tx) (tx_type tx) (vin tx) v.

(** [std::vector::resize(count)]: truncate, or pad with default elements. *)
Definition resize {A : Type} (count : nat) (dflt : A) (v : list A) : list A :=
  firstn count v ++ repeat dflt (count - List.length v).

(** [v[0].scriptSig = s]; indexing an empty vector has no defined result. *)
Definition set_scriptSig_at_0 (s : CScript) (v : list CTxIn) : option (list CTxIn) :=
  match v with
  | [] => None
  | i :: rest => Some (mk_CTxIn (prevout i) s :: rest)
  end.

Record CBlock := mk_CBlock {
  nVersion : Z;
  hashPrevBlock : uint256;
  hashMerkleRoot : uint256;
  nTime : Time;
  nBits : Difficulty;
  vtx : list CTransactionRef;
  signature : bytes
}.

Definition CBlock_new : CBlock :=
  mk_CBlock 0 uint256_zero uint256_zero 0 0 [] [].

(** ** External collaborators

    Functions of other translation units that the builder calls.  They are
    deterministic functions of their arguments; nothing else is known of them
    here, so the builder is modelled over an arbitrary implementation. *)
Class Collaborators := {
  (** [blockchain::Parameters] *)
  Parameters : Type;
  (** [Behavior::NewFromParameters(p)->CalculateProposingTimestamp(t)] *)
  CalculateProposingTimestamp : Parameters -> Time -> Time;
  (** [UintToArith256(d).GetCompact()] *)
  GetCompact : uint256 -> Difficulty;
  (** a default-constructed [CTxIn], as [vin.resize] creates them *)
  CTxIn_default : CTxIn;
  (** [CScript::operator<<(const std::vector<unsigned char>&)] *)
  CScript_push : CScript -> bytes -> CScript;
  (** [CScriptNum::serialize] *)
  CScriptNum_serialize : Z -> bytes;
  (** [GetScriptForDestination] *)
  GetScriptForDestination : CTxDestination -> CScript;
  (** [CTransaction::GetHash] *)
  GetHash : CTransactionRef -> uint256;
  (** [BlockMerkleRoot], the merkle root over the transactions of a block *)
  BlockMerkleRoot : list CTransactionRef -> uint256
}.

(** What the spec assumes of the collaborators: a fresh input refers to
    "the canonical null reference (zero hash, maximum index)", and the merkle
    root "for a one-element list, must equal that element's own hash". *)
Class Contract (C : Collaborators) : Prop := {
  default_input_is_null : prevout CTxIn_default = COutPoint_null;
  merkle_root_single : forall tx : CTransactionRef, BlockMerkleRoot [tx] = GetHash tx
}.

(** ** The builder object and its monad *)

Record GenesisBlockBuilder := mk_GenesisBlockBuilder {
  m_version : Z;
  m_time : Time;
  m_bits : Difficulty;
  m_initial_funds : list (CAmount * CTxDestination)
}.

(** A member function: it reads and may update [*this], and either returns a
    value or aborts. *)
Definition Member (A : Type) : Type :=
  GenesisBlockBuilder -> option (A * GenesisBlockBuilder).

Definition ret {A} (a : A) : Member A := fun self => Some (a, self).

Definition bind {A B} (m : Member A) (k : A -> Member B) : Member B :=
  fun self =>
    match m self with
    | Some (a, self') => k a self'
    | None => None
    end.

Definition gets {A} (f : GenesisBlockBuilder -> A) : Member A :=
  fun self => Some (f self, self).

Definition modify (f : GenesisBlockBuilder -> GenesisBlockBuilder) : Member unit :=
  fun self => Some (tt, f self).

Definition abort {A} : Member A := fun _ => None.

Definition assert (b : bool) : Member unit := if b then ret tt else abort.

Definition lift {A} (o : option A) : Member A :=
  match o with Some a => ret a | None => abort end.

Declare Scope member_scope.
Delimit Scope member_scope with member.
Notation "x <- c ;; k" := (bind c (fun x => k))
  (at level 100, c at next level, right associativity) : member_scope.
Notation "c ;; k" := (bind c (fun _ => k))
  (at level 100, right associativity) : member_scope.

(** A range-based [for] over a vector. *)
Fixpoint for_each {A} (v : list A) (body : A -> Member unit) : Member unit :=
  match v with
  | [] => ret tt
  | x :: rest => bind (body x) (fun _ => for_each rest body)
  end.

(** The builder after a call, when the call returns. *)
Definition exec {A} (m : Member A) (self : GenesisBlockBuilder) : option GenesisBlockBuilder :=
  option_map snd (m self).

(** The value of a call, when the call returns. *)
Definition eval {A} (m : Member A) (self : GenesisBlockBuilder) : option A :=
  option_map fst (m self).

(** ** GenesisBlockBuilder *)

Section Builder.

Context {C : Collaborators}.
Local Open Scope member_scope.

Definition set_m_version (v : Z) (self : GenesisBlockBuilder) :=
  mk_GenesisBlockBuilder v (m_time self) (m_bits self) (m_initial_funds self).

Definition set_m_time (t : Time) (self : GenesisBlockBuilder) :=
  mk_GenesisBlockBuilder (m_version self) t (m_bits self) (m_initial_funds self).

Definition set_m_bits (b : Difficulty) (self : GenesisBlockBuilder) :=
  mk_GenesisBlockBuilder (m_version self) (m_time self) b (m_initial_funds self).

(** [m_initial_funds.emplace_back(amount, destination)] *)
Definition emplace_back_fund (amount : CAmount) (destination : CTxDestination)
    (self : GenesisBlockBuilder) :=
  mk_GenesisBlockBuilder (m_version self) (m_time self) (m_bits self)
    (m_initial_funds self ++ [(amount, destination)]).

(** One iteration of the loop of [BuildCoinbaseTransaction]. *)
Definition add_output (tx : CMutableTransaction) (target : CAmount * CTxDestination)
    : CMutableTransaction :=
  let amount := fst target in
  let destination := snd target in
  let scriptPubKey := GetScriptForDestination destination in
  tx_set_vout (vout tx ++ [mk_CTxOut amount scriptPubKey]) tx.

Definition BuildCoinbaseTransaction : Member CTransactionRef :=
  let tx := CMutableTransaction_new in
  let tx := tx_SetVersion 2 tx in
  let tx := tx_SetType COINBASE tx in
  let script_sig :=
    CScript_push (CScript_push [] (CScriptNum_serialize 0))   (* height *)
                 (ToByteVector uint256_zero) in                (* utxo set hash *)
  let tx := tx_set_vin (resize 1 CTxIn_default (vin tx)) tx in
  vin0 <- lift (set_scriptSig_at_0 script_sig (vin tx)) ;;
  let tx := tx_set_vin vin0 tx in
  funds <- gets m_initial_funds ;;
  let tx := fold_left add_output funds tx in
  ret (MakeTransactionRef tx).

(** Modelled from the spec: [CBlock::ComputeMerkleTrees] is defined in
    primitives/block.cpp, another translation unit; it computes
    "[hashMerkleRoot] via the external merkle-tree utility over [vtx]". *)
Definition ComputeMerkleTrees (b : CBlock) : CBlock :=
  mk_CBlock (nVersion b) (hashPrevBlock b) (BlockMerkleRoot (vtx b)) (nTime b)
    (nBits b) (vtx b) (signature b).

Definition Build (parameters : Parameters) : Member CBlock :=
  version <- gets m_version ;;
  time <- gets m_time ;;
  bits <- gets m_bits ;;
  let genesis_block := CBlock_new in
  let genesis_block :=
    mk_CBlock version (hashPrevBlock genesis_block) (hashMerkleRoot genesis_block)
      (CalculateProposingTimestamp parameters time) bits
      (vtx genesis_block) (signature genesis_block) in
  coinbase_transaction <- BuildCoinbaseTransaction ;;
  let genesis_block :=
    mk_CBlock (nVersion genesis_block) uint256_zero (hashMerkleRoot genesis_block)
      (nTime genesis_block) (nBits genesis_block)
      (vtx genesis_block ++ [coinbase_transaction]) (signature genesis_block) in
  let genesis_block := ComputeMerkleTrees genesis_block in
  let genesis_block :=
    mk_CBlock (nVersion genesis_block) (hashPrevBlock genesis_block)
      (hashMerkleRoot genesis_block) (nTime genesis_block) (nBits genesis_block)
      (vtx genesis_block) [] in
  assert (List.length (vtx genesis_block) =? 1)%nat ;;
  vtx0 <- lift (nth_error (vtx genesis_block) 0) ;;
  assert (List.length (vin vtx0) =? 1)%nat ;;
  vin0 <- lift (nth_error (vin vtx0) 0) ;;
  assert (uint256_eqb (COutPoint.hash (prevout vin0)) uint256_zero) ;;
  assert (COutPoint.n (prevout vin0) =? prevout_n_max) ;;
  funds <- gets m_initial_funds ;;
  assert (List.length (vout vtx0) =? List.length funds)%nat ;;
  assert (uint256_eqb (hashMerkleRoot genesis_block) (GetHash vtx0)) ;;
  ret genesis_block.

Definition SetVersion (version : Z) : Member unit :=
  modify (set_m_version version).

Definition SetTime (time : Time) : Member unit :=
  modify (set_m_time time).

Definition SetBits (bits : Difficulty) : Member unit :=
  modify (set_m_bits bits).

Definition SetDifficulty (difficulty : uint256) : Member unit :=
  modify (set_m_bits (GetCompact difficulty)).

Definition AddFundsForPayToPubKeyHash (amount : CAmount) (hexKey : string)
    : Member unit :=
  data <- lift (ParseHex hexKey) ;;
  pubKeyHash <- lift (uint160_of_vector data) ;;
  modify (emplace_back_fund amount (WitnessV0KeyHash pubKeyHash)).

Definition AddFundsForPayToScriptHash (amount : CAmount) (hexScriptHash : string)
    : Member unit :=
  data <- lift (ParseHex hexScriptHash) ;;
  scriptHash <- lift (uint256_of_vector data) ;;
  modify (emplace_back_fund amount (WitnessV0ScriptHash scriptHash)).

Definition Add (funds : Funds) : Member unit :=
  for_each (destinations funds) (fun output =>
    AddFundsForPayToPubKeyHash (P2WPKH_amount output) (P2WPKH_pub_key_hash output)).

End Builder.

(** ** An executable instance of the collaborators

    A small stand-in used to run the builder on concrete inputs.  It is not
    the node's implementation: pushes are length-prefixed, the transaction
    digest is a checksum of the output scripts, and the merkle root of
    several transactions is left at zero. *)
Module Toy.

Definition push (s : CScript) (v : bytes) : CScript :=
  s ++ Z.of_nat (List.length v) :: v.

Definition serialize (x : Z) : bytes :=
  if x =? 0 then [] else [Z.land x 255].

Definition script_for (d : CTxDestination) : CScript :=
  match d with
  | WitnessV0KeyHash id => push (push [] []) (data160 id)
  | WitnessV0ScriptHash id => push (push [] []) (data256 id)
  end.

Definition digest (tx : CTransactionRef) : uint256 :=
  mk_uint256 (resize 32 0 (List.concat (map scriptPubKey (vout tx)))).

Definition merkle (txs : list CTransactionRef) : uint256 :=
  match txs with
  | [tx] => digest tx
  | _ => uint256_zero
  end.

Definition collaborators : Collaborators := {|
  Parameters := unit;
  CalculateProposingTimestamp := fun _ t => t;
  GetCompact := fun _ => 0;
  CTxIn_default := mk_CTxIn COutPoint_null [];
  CScript_push := push;
  CScriptNum_serialize := serialize;
  GetScriptForDestination := script_for;
  GetHash := digest;
  BlockMerkleRoot := merkle
|}.

Definition H1 : string := "00112233445566778899aabbccddeeff00112233".
Definition H2 : string := "ffeeddccbbaa99887766554433221100ffeeddcc".

Definition H1_bytes : bytes :=
  Eval vm_compute in match ParseHex H1 with Some d => d | None => [] end.

Definition two_descriptors : list P2WPKH :=
  [mk_P2WPKH 5000 H1; mk_P2WPKH 3000 H2].

Definition empty_builder : GenesisBlockBuilder :=
  mk_GenesisBlockBuilder 2 1500000000 486604799 [].

(** The builder of the spec's scenario: version, time and bits set, two
    P2WPKH entries of 5000 and 3000 appended in that order. *)
Definition funded_builder : GenesisBlockBuilder :=
  Eval vm_compute in
    match exec (bind (AddFundsForPayToPubKeyHash 5000 H1)
                     (fun _ => AddFundsForPayToPubKeyHash 3000 H2)) empty_builder with
    | Some b => b
    | None => empty_builder
    end.

Definition funded_block : CBlock :=
  Eval vm_compute in
    match eval (Build (C := collaborators) tt) funded_builder with
    | Some b => b
    | None => CBlock_new
    end.

Definition empty_block : CBlock :=
  Eval vm_compute in
    match eval (Build (C := collaborators) tt) empty_builder with
    | Some b => b
    | None => CBlock_new
    end.

End Toy.

(** ** Closed forms used in the proofs *)

Section ClosedForms.

Context {C : Collaborators}.

(** The output that the loop of [BuildCoinbaseTransaction] emits for one
    entry of the fund list. *)
Definition output_of (target : CAmount * CTxDestination) : CTxOut :=
  mk_CTxOut (fst target) (GetScriptForDestination (snd target)).

(** The unlocking script of the coinbase input. *)
Definition coinbase_script_sig : CScript :=
  CScript_push (CScript_push [] (CScriptNum_serialize 0)) (repeat 0 32).

Definition coinbase_of (funds : list (CAmount * CTxDestination)) : CTransactionRef :=
  mk_CMutableTransaction 2 COINBASE
    [mk_CTxIn (prevout CTxIn_default) coinbase_script_sig]
    (map output_of funds).

(** The assertions of [Build] that depend on the collaborators. *)
Definition invariants_hold (coinbase : CTransactionRef) : bool :=
  uint256_eqb (COutPoint.hash (prevout CTxIn_default)) uint256_zero
  && (COutPoint.n (prevout CTxIn_default) =? prevout_n_max)
  && uint256_eqb (BlockMerkleRoot [coinbase]) (GetHash coinbase).

Definition genesis_of (parameters : Parameters) (self : GenesisBlockBuilder) : CBlock :=
  let coinbase := coinbase_of (m_initial_funds self) in
  mk_CBlock (m_version self) uint256_zero (BlockMerkleRoot [coinbase])
    (CalculateProposingTimestamp parameters (m_time self)) (m_bits self)
    [coinbase] [].

End ClosedForms.

(** The entry that [AddFundsForPayToPubKeyHash] appends for a descriptor
    whose hash string decodes to [data]. *)
Definition entry_of (output : P2WPKH) (data : bytes) : CAmount * CTxDestination :=
  (P2WPKH_amount output, WitnessV0KeyHash (mk_uint160 data)).

(** [entry] is what [Add] appends for the descriptor [output]. *)
Definition appended_for (output : P2WPKH) (entry : CAmount * CTxDestination) : Prop :=
  exists data, ParseHex (P2WPKH_pub_key_hash output) = Some data /\
               List.length data = 20%nat /\
               entry = entry_of output data.

(** Bulk appending as the spec words it: call [AddFundsForPayToPubKeyHash]
    once per entry, in collection order, each call starting from the builder
    the previous one left (and nothing more happening once a call aborts). *)
Definition call_once_per_entry (ds : list P2WPKH) (self : GenesisBlockBuilder)
    : option GenesisBlockBuilder :=
  fold_left
    (fun state output =>
       match state with
       | Some b =>
           exec (AddFundsForPayToPubKeyHash (P2WPKH_amount output)
                                            (P2WPKH_pub_key_hash output)) b
       | None => None
       end)
    ds (Some self).

(** Strings of the length the descriptors expect, none of whose characters
    is a hex digit. *)
Definition non_hex_40 : string := "zzzzzzzzzzzzzzzzzzzzzzzzzzzzzzzzzzzzzzzz".
Definition non_hex_64 : string :=
  "zzzzzzzzzzzzzzzzzzzzzzzzzzzzzzzzzzzzzzzzzzzzzzzzzzzzzzzzzzzzzzzz".

(** ** Sequences of mutating calls

    The calls that change the builder, as values, so that statements can
    range over arbitrary sequences of calls. *)
Inductive Mutation :=
| CallSetVersion (version : Z)
| CallSetTime (time : Time)
| CallSetBits (bits : Difficulty)
| CallSetDifficulty (difficulty : uint256)
| CallAddFundsForPayToPubKeyHash (amount : CAmount) (hexKey : string)
| CallAddFundsForPayToScriptHash (amount : CAmount) (hexScriptHash : string)
| CallAdd (funds : Funds).

(** The member of the builder that a call assigns to. *)
Inductive Field := FieldVersion | FieldTime | FieldBits | FieldFunds.

Definition written_by (c : Mutation) : Field :=
  match c with
  | CallSetVersion _ => FieldVersion
  | CallSetTime _ => FieldTime
  | CallSetBits _ | CallSetDifficulty _ => FieldBits
  | CallAddFundsForPayToPubKeyHash _ _ | CallAddFundsForPayToScriptHash _ _
  | CallAdd _ => FieldFunds
  end.

(** The entry that one append call adds, when its hash string is accepted. *)
Definition key_hash_entry (amount : CAmount) (hexKey : string)
    : option (CAmount * CTxDestination) :=
  match ParseHex hexKey with
  | Some data =>
      option_map (fun id => (amount, WitnessV0KeyHash id)) (uint160_of_vector data)
  | None => None
  end.

Definition script_hash_entry (amount : CAmount) (hexScriptHash : string)
    : option (CAmount * CTxDestination) :=
  match ParseHex hexScriptHash with
  | Some data =>
      option_map (fun id => (amount, WitnessV0ScriptHash id)) (uint256_of_vector data)
  | None => None
  end.

(** The entries that [Add] adds for a collection, when every hash string is
    accepted. *)
Fixpoint entries_of (ds : list P2WPKH) : option (list (CAmount * CTxDestination)) :=
  match ds with
  | [] => Some []
  | d :: rest =>
      match key_hash_entry (P2WPKH_amount d) (P2WPKH_pub_key_hash d), entries_of rest with
      | Some e, Some es => Some (e :: es)
      | _, _ => None
      end
  end.

Definition with_funds_appended (added : list (CAmount * CTxDestination))
    (self : GenesisBlockBuilder) : GenesisBlockBuilder :=
  mk_GenesisBlockBuilder (m_version self) (m_time self) (m_bits self)
    (m_initial_funds self ++ added).

Section Mutations.

Context {C : Collaborators}.

Definition perform (c : Mutation) : Member unit :=
  match c with
  | CallSetVersion version => SetVersion version
  | CallSetTime time => SetTime time
  | CallSetBits bits => SetBits bits
  | CallSetDifficulty difficulty => SetDifficulty difficulty
  | CallAddFundsForPayToPubKeyHash amount hexKey =>
      AddFundsForPayToPubKeyHash amount hexKey
  | CallAddFundsForPayToScriptHash amount hexScriptHash =>
      AddFundsForPayToScriptHash amount hexScriptHash
  | CallAdd funds => Add funds
  end.

(** What a call does to the builder when it returns; [None] when it
    aborts. *)
Definition effect (c : Mutation) : option (GenesisBlockBuilder -> GenesisBlockBuilder) :=
  match c with
  | CallSetVersion version => Some (set_m_version version)
  | CallSetTime time => Some (set_m_time time)
  | CallSetBits bits => Some (set_m_bits bits)
  | CallSetDifficulty difficulty => Some (set_m_bits (GetCompact difficulty))
  | CallAddFundsForPayToPubKeyHash amount hexKey =>
      option_map (fun e => with_funds_appended [e]) (key_hash_entry amount hexKey)
  | CallAddFundsForPayToScriptHash amount hexScriptHash =>
      option_map (fun e => with_funds_appended [e]) (script_hash_entry amount hexScriptHash)
  | CallAdd funds =>
      option_map with_funds_appended (entries_of (destinations funds))
  end.

End Mutations.

(** Sums over the fund list and over the outputs, as integers. *)
Definition total_amount (funds : list (CAmount * CTxDestination)) : Z :=
  fold_right (fun entry acc => fst entry + acc) 0 funds.

Definition total_value (outputs : list CTxOut) : Z :=
  fold_right (fun output acc => nValue output + acc) 0 outputs.

(** Collaborators whose merkle-root utility is wrong: it returns zero for
    every block. *)
Module Faulty.

Definition collaborators : Collaborators := {|
  Parameters := unit;
  CalculateProposingTimestamp := fun _ t => t;
  GetCompact := fun _ => 0;
  CTxIn_default := mk_CTxIn COutPoint_null [];
  CScript_push := Toy.push;
  CScriptNum_serialize := Toy.serialize;
  GetScriptForDestination := Toy.script_for;
  GetHash := Toy.digest;
  BlockMerkleRoot := fun _ => uint256_zero
|}.

End Faulty.

(** ** Calls at different moments

    [Build] takes the timestamp from the chain's behaviour object, which it
    creates from the parameters each time it is called; the spec lets that
    policy resolve the time dynamically ("use current adjusted time").  To
    speak of two calls made at different moments, the timestamp resolver is
    given the moment of the call as a further argument, so that it may answer
    differently from one call to the next.  The other collaborators are
    encodings and hashes of the data they are given. *)
Section Moments.

Context {C : Collaborators} {Moment : Type}.
Variable resolver : Moment -> Parameters -> Time -> Time.

(** The collaborators as they answer at the moment [now]. *)
Definition at_moment (now : Moment) : Collaborators := {|
  Parameters := Parameters;
  CalculateProposingTimestamp := resolver now;
  GetCompact := GetCompact;
  CTxIn_default := CTxIn_default;
  CScript_push := CScript_push;
  CScriptNum_serialize := CScriptNum_serialize;
  GetScriptForDestination := GetScriptForDestination;
  GetHash := GetHash;
  BlockMerkleRoot := BlockMerkleRoot
|}.

(** [Build], called at the moment [now]. *)
Definition Build_at (now : Moment) (parameters : Parameters) : Member CBlock :=
  Build (C := at_moment now) parameters.

End Moments.

(** A timestamp policy that reads the clock when the builder's time is 0,
    and one that never reads it. *)
Definition clock_reading_resolver (now : Z) (_ : unit) (time : Time) : Time :=
  if time =? 0 then now else time.


(** * Properties *)

(** ** Byte comparison *)

Lemma bytes_eqb_eq (a b : bytes) : bytes_eqb a b = true <-> a = b.
Proof.
  revert b; induction a as [|x a IH]; intros [|y b]; simpl;
    try (split; [discriminate | discriminate]); try tauto.
  rewrite andb_true_iff, Z.eqb_eq, IH. split.
  - intros [-> ->]. reflexivity.
  - intros E. inversion E. auto.
Qed.

Lemma uint256_eqb_eq (a b : uint256) : uint256_eqb a b = true <-> a = b.
Proof.
  unfold uint256_eqb. rewrite bytes_eqb_eq.
  destruct a, b; simpl. split; congruence.
Qed.

Lemma uint256_eqb_refl (a : uint256) : uint256_eqb a a = true.
Proof. apply uint256_eqb_eq. reflexivity. Qed.

(** ** Hex decoding *)

Lemma ParseHex_length (s : string) (data : bytes) :
  ParseHex s = Some data -> String.length s = (2 * List.length data)%nat.
Proof.
  revert s. induction data as [|b data IH]; intros s H.
  - destruct s as [|c1 [|c2 rest]]; simpl in H; try discriminate; try reflexivity.
    destruct (HexDigit c1), (HexDigit c2), (ParseHex rest); discriminate.
  - destruct s as [|c1 [|c2 rest]]; simpl in H; try discriminate.
    destruct (HexDigit c1), (HexDigit c2); try discriminate.
    destruct (ParseHex rest) as [vch|] eqn:E; try discriminate.
    inversion H; subst. simpl. rewrite (IH rest E). lia.
Qed.

(** ** The coinbase transaction and the block in closed form *)

Section BuildFacts.

Context {C : Collaborators}.

Lemma fold_add_output (funds : list (CAmount * CTxDestination)) (tx : CMutableTransaction) :
  fold_left add_output funds tx =
  mk_CMutableTransaction (tx_version tx) (tx_type tx) (vin tx)
    (vout tx ++ map output_of funds).
Proof.
  revert tx. induction funds as [|target funds IH]; intros tx; simpl.
  - rewrite app_nil_r. destruct tx; reflexivity.
  - rewrite IH. unfold add_output, tx_set_vout; simpl.
    rewrite <- app_assoc. reflexivity.
Qed.

Lemma BuildCoinbaseTransaction_closed (self : GenesisBlockBuilder) :
  BuildCoinbaseTransaction self = Some (coinbase_of (m_initial_funds self), self).
Proof.
  unfold BuildCoinbaseTransaction, bind, gets, ret, lift; simpl.
  rewrite fold_add_output. reflexivity.
Qed.

Lemma Build_closed (parameters : Parameters) (self : GenesisBlockBuilder) :
  Build parameters self =
  if invariants_hold (coinbase_of (m_initial_funds self))
  then Some (genesis_of parameters self, self)
  else None.
Proof.
  unfold Build, bind, gets, invariants_hold.
  rewrite BuildCoinbaseTransaction_closed.
  cbn [CBlock_new vtx app ComputeMerkleTrees List.length Nat.eqb assert ret
       nth_error lift coinbase_of vin vout prevout hashMerkleRoot nVersion
       nBits nTime hashPrevBlock signature].
  destruct (uint256_eqb (COutPoint.hash _) _); [|reflexivity].
  destruct (COutPoint.n _ =? _); [|reflexivity].
  cbn [assert ret andb].
  rewrite length_map, Nat.eqb_refl; cbn [assert ret].
  destruct (uint256_eqb _ _); reflexivity.
Qed.

(** What is known of a call of [Build] that returned. *)
Lemma Build_returns (parameters : Parameters) (self self' : GenesisBlockBuilder)
    (block : CBlock) :
  Build parameters self = Some (block, self') ->
  block = genesis_of parameters self /\ self' = self /\
  prevout CTxIn_default = COutPoint_null /\
  BlockMerkleRoot [coinbase_of (m_initial_funds self)] =
  GetHash (coinbase_of (m_initial_funds self)).
Proof.
  rewrite Build_closed. unfold invariants_hold.
  destruct (uint256_eqb (COutPoint.hash _) _) eqn:E1; [|discriminate].
  destruct (COutPoint.n _ =? _) eqn:E2; [|discriminate].
  destruct (uint256_eqb (BlockMerkleRoot _) _) eqn:E3; [|discriminate].
  cbn [andb]. intros H; inversion H; subst.
  apply uint256_eqb_eq in E1, E3. apply Z.eqb_eq in E2.
  repeat split; try assumption.
  destruct (prevout CTxIn_default) as [h k]; cbn in E1, E2.
  subst h k. reflexivity.
Qed.

(** Under the collaborators' contract no assertion of [Build] fires. *)
Lemma Build_succeeds {K : Contract C} (parameters : Parameters)
    (self : GenesisBlockBuilder) :
  Build parameters self = Some (genesis_of parameters self, self).
Proof.
  rewrite Build_closed. unfold invariants_hold.
  rewrite default_input_is_null, merkle_root_single.
  cbn [COutPoint_null COutPoint.hash COutPoint.n].
  rewrite !uint256_eqb_refl, Z.eqb_refl. reflexivity.
Qed.

End BuildFacts.

(** ** Fund descriptor construction *)

Lemma P2WPKH_ctor_None (amount : CAmount) (s : string) :
  P2WPKH_ctor amount s = None <-> amount <= 0 \/ String.length s <> 40%nat.
Proof.
  unfold P2WPKH_ctor.
  destruct (Z.gtb_spec amount 0) as [Hpos|Hneg]; cbn [negb].
  - destruct (Nat.eqb_spec (String.length s) 40) as [Hlen|Hlen]; cbn [negb].
    + split; [discriminate | intros [H|H]; [lia | contradiction]].
    + split; auto.
  - split; auto.
Qed.

Lemma P2WSH_ctor_None (amount : CAmount) (s : string) :
  P2WSH_ctor amount s = None <-> amount <= 0 \/ String.length s <> 64%nat.
Proof.
  unfold P2WSH_ctor.
  destruct (Z.gtb_spec amount 0) as [Hpos|Hneg]; cbn [negb].
  - destruct (Nat.eqb_spec (String.length s) 64) as [Hlen|Hlen]; cbn [negb].
    + split; [discriminate | intros [H|H]; [lia | contradiction]].
    + split; auto.
  - split; auto.
Qed.

(** C4.  For every amount <= 0 and every hash string, whether or not it is a
    well-formed hash, the constructors of [P2WPKH] and of [P2WSH] fail: the
    first assertion, [amount > 0], fires. *)
Theorem descriptor_ctor_rejects_nonpositive_amount (amount : CAmount) (hash_hex : string) :
  amount <= 0 ->
  P2WPKH_ctor amount hash_hex = None /\ P2WSH_ctor amount hash_hex = None.
Proof.
  intros H. split.
  - apply P2WPKH_ctor_None. left; exact H.
  - apply P2WSH_ctor_None. left; exact H.
Qed.

Lemma descriptor_ctor_rejects_nonpositive_amount_witness :
  -1 <= 0 /\ P2WPKH_ctor (-1) Toy.H1 = None /\ P2WSH_ctor (-1) Toy.H1 = None.
Proof.
  split; [lia|].
  apply (descriptor_ctor_rejects_nonpositive_amount (-1) Toy.H1). lia.
Defined.

(** C5, as stated, fails: a string of 40 (respectively 64) characters none of
    which is a hex digit does not decode, yet with a positive amount the
    constructor accepts it: only the number of characters is asserted. *)
Lemma descriptor_ctor_accepts_undecodable_hash :
  ParseHex non_hex_40 = None /\
  P2WPKH_ctor 1 non_hex_40 = Some (mk_P2WPKH 1 non_hex_40) /\
  ParseHex non_hex_64 = None /\
  P2WSH_ctor 1 non_hex_64 = Some (mk_P2WSH 1 non_hex_64).
Proof. repeat split; reflexivity. Qed.

(** C5, amended.  Construction fails exactly when the amount is not positive
    or the string does not have 40 characters (P2WPKH), respectively 64
    characters (P2WSH).  In particular it fails for every hex string whose
    decoded length is not 20, respectively 32, bytes.  The string is not
    decoded by the constructors. *)
Theorem descriptor_ctor_fails_iff_wrong_size (amount : CAmount) (hash_hex : string) :
  (P2WPKH_ctor amount hash_hex = None <->
     amount <= 0 \/ String.length hash_hex <> 40%nat) /\
  (P2WSH_ctor amount hash_hex = None <->
     amount <= 0 \/ String.length hash_hex <> 64%nat) /\
  (forall data, ParseHex hash_hex = Some data ->
     (List.length data <> 20%nat -> P2WPKH_ctor amount hash_hex = None) /\
     (List.length data <> 32%nat -> P2WSH_ctor amount hash_hex = None)).
Proof.
  split; [apply P2WPKH_ctor_None|].
  split; [apply P2WSH_ctor_None|].
  intros data Hdata. apply ParseHex_length in Hdata. split; intros Hlen.
  - apply P2WPKH_ctor_None. right. lia.
  - apply P2WSH_ctor_None. right. lia.
Qed.

Lemma descriptor_ctor_fails_iff_wrong_size_witness :
  ParseHex "00ff" = Some [0; 255] /\
  P2WPKH_ctor 5000 "00ff" = None /\ P2WSH_ctor 5000 "00ff" = None.
Proof.
  split; [reflexivity|].
  pose proof (descriptor_ctor_fails_iff_wrong_size 5000 "00ff") as [_ [_ H]].
  destruct (H [0; 255] eq_refl) as [H20 H32].
  split; [apply H20 | apply H32]; simpl; lia.
Defined.

(** ** Appending to the fund list *)

Lemma AddFundsForPayToPubKeyHash_closed (amount : CAmount) (hexKey : string)
    (self : GenesisBlockBuilder) :
  AddFundsForPayToPubKeyHash amount hexKey self =
  match ParseHex hexKey with
  | Some data =>
      if (List.length data =? 20)%nat
      then Some (tt, emplace_back_fund amount (WitnessV0KeyHash (mk_uint160 data)) self)
      else None
  | None => None
  end.
Proof.
  unfold AddFundsForPayToPubKeyHash, bind, lift, uint160_of_vector.
  destruct (ParseHex hexKey) as [data|]; [|reflexivity]. cbn [ret].
  destruct (List.length data =? 20)%nat; reflexivity.
Qed.

Lemma AddFundsForPayToScriptHash_closed (amount : CAmount) (hexScriptHash : string)
    (self : GenesisBlockBuilder) :
  AddFundsForPayToScriptHash amount hexScriptHash self =
  match ParseHex hexScriptHash with
  | Some data =>
      if (List.length data =? 32)%nat
      then Some (tt, emplace_back_fund amount (WitnessV0ScriptHash (mk_uint256 data)) self)
      else None
  | None => None
  end.
Proof.
  unfold AddFundsForPayToScriptHash, bind, lift, uint256_of_vector.
  destruct (ParseHex hexScriptHash) as [data|]; [|reflexivity]. cbn [ret].
  destruct (List.length data =? 32)%nat; reflexivity.
Qed.

(** C6, as stated, fails: the one-byte hex string "00" is rejected by both
    append operations, whatever the amount, because the decoded bytes do not
    fill a 20-byte (respectively 32-byte) hash. *)
Lemma AddFunds_rejects_short_hash :
  ParseHex "00" = Some [0] /\
  AddFundsForPayToPubKeyHash 5000 "00" Toy.empty_builder = None /\
  AddFundsForPayToScriptHash 5000 "00" Toy.empty_builder = None.
Proof. repeat split; reflexivity. Qed.

(** C6, amended.  The append operations do not validate the amount.  For
    every amount, positive or not, and every string that is the hex encoding
    of exactly 20 bytes, [AddFundsForPayToPubKeyHash] returns and appends
    exactly one entry, carrying that amount and those bytes, at the end of the
    fund list, leaving version, time and bits as they were; likewise
    [AddFundsForPayToScriptHash] with 32 bytes.  A hex string that decodes to
    another number of bytes makes the call fail. *)
Theorem AddFunds_appends_for_any_amount (amount : CAmount) (hex : string)
    (data : bytes) (self : GenesisBlockBuilder) :
  ParseHex hex = Some data ->
  (List.length data = 20%nat ->
     AddFundsForPayToPubKeyHash amount hex self =
     Some (tt, mk_GenesisBlockBuilder (m_version self) (m_time self) (m_bits self)
                 (m_initial_funds self ++ [(amount, WitnessV0KeyHash (mk_uint160 data))]))) /\
  (List.length data <> 20%nat -> AddFundsForPayToPubKeyHash amount hex self = None) /\
  (List.length data = 32%nat ->
     AddFundsForPayToScriptHash amount hex self =
     Some (tt, mk_GenesisBlockBuilder (m_version self) (m_time self) (m_bits self)
                 (m_initial_funds self ++ [(amount, WitnessV0ScriptHash (mk_uint256 data))]))) /\
  (List.length data <> 32%nat -> AddFundsForPayToScriptHash amount hex self = None).
Proof.
  intros Hdata.
  rewrite AddFundsForPayToPubKeyHash_closed, AddFundsForPayToScriptHash_closed, Hdata.
  repeat split; intros Hlen.
  - apply Nat.eqb_eq in Hlen. rewrite Hlen. reflexivity.
  - apply Nat.eqb_neq in Hlen. rewrite Hlen. reflexivity.
  - apply Nat.eqb_eq in Hlen. rewrite Hlen. reflexivity.
  - apply Nat.eqb_neq in Hlen. rewrite Hlen. reflexivity.
Qed.

Lemma AddFunds_appends_for_any_amount_witness :
  ParseHex Toy.H1 = Some Toy.H1_bytes /\
  List.length Toy.H1_bytes = 20%nat /\
  AddFundsForPayToPubKeyHash (-5) Toy.H1 Toy.funded_builder =
  Some (tt, mk_GenesisBlockBuilder 2 1500000000 486604799
              (m_initial_funds Toy.funded_builder
               ++ [(-5, WitnessV0KeyHash (mk_uint160 Toy.H1_bytes))])).
Proof.
  split; [reflexivity|]. split; [reflexivity|].
  apply (proj1 (AddFunds_appends_for_any_amount (-5) Toy.H1 Toy.H1_bytes
                  Toy.funded_builder eq_refl)).
  reflexivity.
Defined.

(** The loop of [Add], one iteration at a time. *)
Lemma exec_for_each_cons {A} (x : A) (rest : list A) (body : A -> Member unit)
    (self : GenesisBlockBuilder) :
  exec (for_each (x :: rest) body) self =
  match exec (body x) self with
  | Some self' => exec (for_each rest body) self'
  | None => None
  end.
Proof.
  unfold exec; cbn [for_each]. unfold bind.
  destruct (body x self) as [[u self']|]; reflexivity.
Qed.

Lemma call_once_per_entry_aborted {A} (step : GenesisBlockBuilder -> A -> option GenesisBlockBuilder)
    (ds : list A) :
  fold_left (fun state x => match state with Some b => step b x | None => None end)
            ds None = None.
Proof. induction ds as [|d ds IH]; simpl; auto. Qed.

Lemma Add_call_once_per_entry (ds : list P2WPKH) (self : GenesisBlockBuilder) :
  exec (Add (mk_Funds ds)) self = call_once_per_entry ds self.
Proof.
  unfold Add, call_once_per_entry; cbn [destinations].
  revert self. induction ds as [|d ds IH]; intros self.
  - reflexivity.
  - rewrite exec_for_each_cons. cbn [fold_left].
    destruct (exec _ self) as [self'|].
    + apply IH.
    + symmetry.
      apply (call_once_per_entry_aborted
               (fun b output =>
                  exec (AddFundsForPayToPubKeyHash (P2WPKH_amount output)
                          (P2WPKH_pub_key_hash output)) b)).
Qed.

Lemma Add_appends_in_order (ds : list P2WPKH) (self self' : GenesisBlockBuilder) :
  exec (Add (mk_Funds ds)) self = Some self' ->
  m_version self' = m_version self /\ m_time self' = m_time self /\
  m_bits self' = m_bits self /\
  exists added, Forall2 appended_for ds added /\
                m_initial_funds self' = m_initial_funds self ++ added.
Proof.
  unfold Add; cbn [destinations].
  revert self. induction ds as [|d ds IH]; intros self.
  - unfold exec; cbn. intros H; inversion H; subst.
    repeat split. exists []. rewrite app_nil_r. split; [constructor | reflexivity].
  - rewrite exec_for_each_cons. unfold exec at 1.
    rewrite AddFundsForPayToPubKeyHash_closed.
    destruct (ParseHex (P2WPKH_pub_key_hash d)) as [data|] eqn:Hdata; [|discriminate].
    destruct (Nat.eqb_spec (List.length data) 20) as [Hlen|Hlen]; [|discriminate].
    cbn [option_map snd]. intros H.
    destruct (IH _ H) as (Hv & Ht & Hb & added & Hall & Hfunds).
    cbn in Hv, Ht, Hb, Hfunds.
    repeat split; try assumption.
    exists (entry_of d data :: added). split.
    + constructor; [|exact Hall]. exists data. auto.
    + rewrite Hfunds, <- app_assoc. reflexivity.
Qed.

(** C9.  Bulk-appending a collection of P2WPKH entries with [Add] leaves the
    builder in the state that calling [AddFundsForPayToPubKeyHash] once per
    entry, in collection order, leaves it in.  When [Add] returns, the fund
    list is the former list followed by one entry per descriptor, in the
    order of the collection (nothing dropped, merged or reordered), and
    version, time and bits are unchanged. *)
Theorem Add_is_one_call_per_entry_in_order (ds : list P2WPKH) (self : GenesisBlockBuilder) :
  exec (Add (mk_Funds ds)) self = call_once_per_entry ds self /\
  (forall self', exec (Add (mk_Funds ds)) self = Some self' ->
     m_version self' = m_version self /\ m_time self' = m_time self /\
     m_bits self' = m_bits self /\
     exists added, Forall2 appended_for ds added /\
                   m_initial_funds self' = m_initial_funds self ++ added).
Proof.
  split.
  - apply Add_call_once_per_entry.
  - intros self'. apply Add_appends_in_order.
Qed.

Lemma Add_is_one_call_per_entry_in_order_witness :
  exec (Add (mk_Funds Toy.two_descriptors)) Toy.empty_builder = Some Toy.funded_builder /\
  call_once_per_entry Toy.two_descriptors Toy.empty_builder = Some Toy.funded_builder /\
  exists added, Forall2 appended_for Toy.two_descriptors added /\
                m_initial_funds Toy.funded_builder =
                m_initial_funds Toy.empty_builder ++ added.
Proof.
  destruct (Add_is_one_call_per_entry_in_order Toy.two_descriptors Toy.empty_builder)
    as [Hsame Hstate].
  split; [reflexivity|].
  split; [rewrite <- Hsame; reflexivity|].
  apply (Hstate Toy.funded_builder eq_refl).
Defined.

(** ** The genesis block *)

Section BuildProperties.

Context {C : Collaborators}.

(** C1.  Whenever [Build] returns a block, the block holds exactly one
    transaction, [vtx[0]], and [hashMerkleRoot] is the hash of that
    transaction. *)
Theorem Build_merkle_root_is_hash_of_sole_transaction
    (parameters : Parameters) (self self' : GenesisBlockBuilder) (block : CBlock) :
  Build parameters self = Some (block, self') ->
  exists tx, vtx block = [tx] /\ nth_error (vtx block) 0 = Some tx /\
             hashMerkleRoot block = GetHash tx.
Proof.
  intros H. apply Build_returns in H as (-> & _ & _ & Hroot).
  exists (coinbase_of (m_initial_funds self)).
  repeat split. exact Hroot.
Qed.

(** C2.  Given collaborators that meet their contract, [Build] returns for
    every fund list, the empty one included: no assertion fires.  The
    coinbase transaction of the block has exactly one input, whose
    previous-output hash is the all-zero value and whose previous-output
    index is the maximum of its 32-bit unsigned type; for the empty fund list
    the transaction has no output. *)
Theorem Build_succeeds_with_null_coinbase_input {K : Contract C}
    (parameters : Parameters) (self : GenesisBlockBuilder) :
  exists block tx input,
    Build parameters self = Some (block, self) /\
    vtx block = [tx] /\ vin tx = [input] /\
    COutPoint.hash (prevout input) = uint256_zero /\
    COutPoint.n (prevout input) = 4294967295 /\
    (m_initial_funds self = [] -> vout tx = []).
Proof.
  exists (genesis_of parameters self), (coinbase_of (m_initial_funds self)).
  eexists. split; [apply Build_succeeds|].
  cbn [genesis_of coinbase_of vtx vin prevout].
  rewrite default_input_is_null.
  repeat split. cbn [vout]. intros ->. reflexivity.
Qed.

(** C3.  Given collaborators that meet their contract, [Build] returns, for
    every fund list and so for every non-empty one, a block whose coinbase
    transaction has one output per fund entry, in the order of the fund list:
    the i-th output carries the amount of the i-th entry and the script that
    [GetScriptForDestination] derives from its destination. *)
Theorem Build_outputs_follow_fund_list {K : Contract C}
    (parameters : Parameters) (self : GenesisBlockBuilder) :
  exists block tx,
    Build parameters self = Some (block, self) /\
    vtx block = [tx] /\
    List.length (vout tx) = List.length (m_initial_funds self) /\
    vout tx =
      map (fun entry => mk_CTxOut (fst entry) (GetScriptForDestination (snd entry)))
          (m_initial_funds self) /\
    (forall i amount destination,
        nth_error (m_initial_funds self) i = Some (amount, destination) ->
        nth_error (vout tx) i =
        Some (mk_CTxOut amount (GetScriptForDestination destination))).
Proof.
  exists (genesis_of parameters self), (coinbase_of (m_initial_funds self)).
  split; [apply Build_succeeds|].
  cbn [genesis_of coinbase_of vtx vout].
  repeat split.
  - apply length_map.
  - intros i amount destination Hi.
    rewrite nth_error_map, Hi. reflexivity.
Qed.

Section TwoCalls.

Context {Moment : Type}.
Variable resolver : Moment -> Parameters -> Time -> Time.



End TwoCalls.

(** C8.  The coinbase transaction has a single input, and its unlocking
    script is the empty script with two values pushed in this order: the
    serialization of the number zero (the height), then the 32 zero bytes of
    the all-zero 256-bit value (the UTXO-set hash). *)
Theorem coinbase_script_sig_is_height_then_utxo_hash (self : GenesisBlockBuilder) :
  exists tx input,
    BuildCoinbaseTransaction self = Some (tx, self) /\
    vin tx = [input] /\
    ToByteVector uint256_zero = repeat 0 32 /\
    scriptSig input =
      CScript_push (CScript_push [] (CScriptNum_serialize 0))
                   (ToByteVector uint256_zero).
Proof.
  eexists; eexists. split; [apply BuildCoinbaseTransaction_closed|].
  repeat split.
Qed.

(** C10.  [Build] and [BuildCoinbaseTransaction] do not modify the builder:
    when they return, version, time, bits and fund list are what they were
    before the call. *)
Theorem Build_leaves_builder_unchanged
    (parameters : Parameters) (self self' : GenesisBlockBuilder) (block : CBlock) :
  Build parameters self = Some (block, self') ->
  self' = self /\
  m_version self' = m_version self /\ m_time self' = m_time self /\
  m_bits self' = m_bits self /\ m_initial_funds self' = m_initial_funds self /\
  BuildCoinbaseTransaction self = Some (coinbase_of (m_initial_funds self), self).
Proof.
  intros H. apply Build_returns in H as (_ & -> & _ & _).
  repeat split. apply BuildCoinbaseTransaction_closed.
Qed.

End BuildProperties.

(** ** The theorems at work on the scenario of the spec *)

Lemma Build_merkle_root_is_hash_of_sole_transaction_witness :
  Build (C := Toy.collaborators) tt Toy.funded_builder =
    Some (Toy.funded_block, Toy.funded_builder) /\
  exists tx, vtx Toy.funded_block = [tx] /\
             nth_error (vtx Toy.funded_block) 0 = Some tx /\
             hashMerkleRoot Toy.funded_block = Toy.digest tx.
Proof.
  split; [vm_compute; reflexivity|].
  apply (Build_merkle_root_is_hash_of_sole_transaction (C := Toy.collaborators)
           tt Toy.funded_builder Toy.funded_builder Toy.funded_block).
  vm_compute; reflexivity.
Defined.

Lemma Build_succeeds_with_null_coinbase_input_witness :
  Contract Toy.collaborators /\
  exists block tx input,
    Build (C := Toy.collaborators) tt Toy.empty_builder = Some (block, Toy.empty_builder) /\
    vtx block = [tx] /\ vin tx = [input] /\
    COutPoint.hash (prevout input) = uint256_zero /\
    COutPoint.n (prevout input) = 4294967295 /\
    (m_initial_funds Toy.empty_builder = [] -> vout tx = []).
Proof.
  assert (K : Contract Toy.collaborators) by (split; reflexivity).
  split; [exact K|].
  apply (Build_succeeds_with_null_coinbase_input (C := Toy.collaborators)
           (K := K) tt Toy.empty_builder).
Defined.

Lemma Build_outputs_follow_fund_list_witness :
  Contract Toy.collaborators /\
  m_initial_funds Toy.funded_builder <> [] /\
  exists block tx,
    Build (C := Toy.collaborators) tt Toy.funded_builder = Some (block, Toy.funded_builder) /\
    vtx block = [tx] /\
    List.length (vout tx) = List.length (m_initial_funds Toy.funded_builder) /\
    vout tx =
      map (fun entry => mk_CTxOut (fst entry) (Toy.script_for (snd entry)))
          (m_initial_funds Toy.funded_builder) /\
    (forall i amount destination,
        nth_error (m_initial_funds Toy.funded_builder) i = Some (amount, destination) ->
        nth_error (vout tx) i = Some (mk_CTxOut amount (Toy.script_for destination))).
Proof.
  assert (K : Contract Toy.collaborators) by (split; reflexivity).
  split; [exact K|].
  split; [discriminate|].
  apply (Build_outputs_follow_fund_list (C := Toy.collaborators)
           (K := K) tt Toy.funded_builder).
Defined.


(** A resolver that reads the clock falls outside the contract: with the
    builder's time at 0 the two calls return blocks that differ, and they
    differ in [nTime] only. *)
Example Build_twice_with_clock_reading_resolver :
  exists block1 block2,
    Build_at (C := Toy.collaborators) clock_reading_resolver 100 tt
      (set_m_time 0 Toy.funded_builder) = Some (block1, set_m_time 0 Toy.funded_builder) /\
    Build_at (C := Toy.collaborators) clock_reading_resolver 200 tt
      (set_m_time 0 Toy.funded_builder) = Some (block2, set_m_time 0 Toy.funded_builder) /\
    nTime block1 = 100 /\ nTime block2 = 200 /\ block1 <> block2 /\
    vtx block1 = vtx block2 /\ hashMerkleRoot block1 = hashMerkleRoot block2.
Proof.
  eexists; eexists. split; [vm_compute; reflexivity|].
  split; [vm_compute; reflexivity|].
  repeat split. discriminate.
Qed.

Lemma Build_leaves_builder_unchanged_witness :
  Build (C := Toy.collaborators) tt Toy.funded_builder =
    Some (Toy.funded_block, Toy.funded_builder) /\
  BuildCoinbaseTransaction (C := Toy.collaborators) Toy.funded_builder =
    Some (coinbase_of (C := Toy.collaborators) (m_initial_funds Toy.funded_builder),
          Toy.funded_builder).
Proof.
  split; [vm_compute; reflexivity|].
  apply (Build_leaves_builder_unchanged (C := Toy.collaborators)
           tt Toy.funded_builder Toy.funded_builder Toy.funded_block).
  vm_compute; reflexivity.
Defined.

(** The fluent chain of the spec's scenario: setters, two appends, then
    [Build]; the block has the two outputs in the order of the appends. *)
Example scenario_chain :
  eval (bind (SetVersion 2) (fun _ =>
        bind (SetTime 1500000000) (fun _ =>
        bind (SetBits 486604799) (fun _ =>
        bind (AddFundsForPayToPubKeyHash 5000 Toy.H1) (fun _ =>
        bind (AddFundsForPayToPubKeyHash 3000 Toy.H2) (fun _ =>
        Build (C := Toy.collaborators) tt))))))
       (mk_GenesisBlockBuilder 0 0 0 []) = Some Toy.funded_block /\
  map nValue (List.concat (map vout (vtx Toy.funded_block))) = [5000; 3000].
Proof. split; vm_compute; reflexivity. Qed.

(** * Further properties of the builder *)

(** ** Mutating calls in closed form *)

Lemma with_funds_appended_nil (self : GenesisBlockBuilder) :
  with_funds_appended [] self = self.
Proof. unfold with_funds_appended. rewrite app_nil_r. destruct self; reflexivity. Qed.

Lemma with_funds_appended_app (xs ys : list (CAmount * CTxDestination))
    (self : GenesisBlockBuilder) :
  with_funds_appended ys (with_funds_appended xs self) =
  with_funds_appended (xs ++ ys) self.
Proof. unfold with_funds_appended; cbn. rewrite app_assoc. reflexivity. Qed.

Lemma AddFundsForPayToPubKeyHash_effect (amount : CAmount) (hexKey : string)
    (self : GenesisBlockBuilder) :
  AddFundsForPayToPubKeyHash amount hexKey self =
  match key_hash_entry amount hexKey with
  | Some e => Some (tt, with_funds_appended [e] self)
  | None => None
  end.
Proof.
  rewrite AddFundsForPayToPubKeyHash_closed.
  unfold key_hash_entry, uint160_of_vector.
  destruct (ParseHex hexKey) as [data|]; [|reflexivity].
  destruct (List.length data =? 20)%nat; reflexivity.
Qed.

Lemma AddFundsForPayToScriptHash_effect (amount : CAmount) (hexScriptHash : string)
    (self : GenesisBlockBuilder) :
  AddFundsForPayToScriptHash amount hexScriptHash self =
  match script_hash_entry amount hexScriptHash with
  | Some e => Some (tt, with_funds_appended [e] self)
  | None => None
  end.
Proof.
  rewrite AddFundsForPayToScriptHash_closed.
  unfold script_hash_entry, uint256_of_vector.
  destruct (ParseHex hexScriptHash) as [data|]; [|reflexivity].
  destruct (List.length data =? 32)%nat; reflexivity.
Qed.

Lemma Add_effect (ds : list P2WPKH) (self : GenesisBlockBuilder) :
  Add (mk_Funds ds) self =
  match entries_of ds with
  | Some es => Some (tt, with_funds_appended es self)
  | None => None
  end.
Proof.
  unfold Add; cbn [destinations].
  revert self. induction ds as [|d ds IH]; intros self.
  - cbn. rewrite with_funds_appended_nil. reflexivity.
  - cbn [for_each entries_of]. unfold bind.
    rewrite AddFundsForPayToPubKeyHash_effect.
    destruct (key_hash_entry _ _) as [e|]; [|reflexivity].
    rewrite IH. destruct (entries_of ds) as [es|]; [|reflexivity].
    rewrite with_funds_appended_app. reflexivity.
Qed.

Lemma entries_of_app (ds1 ds2 : list P2WPKH) :
  entries_of (ds1 ++ ds2) =
  match entries_of ds1, entries_of ds2 with
  | Some es1, Some es2 => Some (es1 ++ es2)
  | _, _ => None
  end.
Proof.
  induction ds1 as [|d ds1 IH]; cbn [app entries_of].
  - destruct (entries_of ds2); reflexivity.
  - destruct (key_hash_entry _ _) as [e|]; [|reflexivity].
    rewrite IH. destruct (entries_of ds1), (entries_of ds2); reflexivity.
Qed.

Section MutationFacts.

Context {C : Collaborators}.

Lemma perform_effect (c : Mutation) (self : GenesisBlockBuilder) :
  perform c self =
  match effect c with
  | Some f => Some (tt, f self)
  | None => None
  end.
Proof.
  destruct c as [v|t|b|d|a h|a h|[ds]]; cbn [perform effect]; try reflexivity.
  - rewrite AddFundsForPayToPubKeyHash_effect.
    destruct (key_hash_entry a h); reflexivity.
  - rewrite AddFundsForPayToScriptHash_effect.
    destruct (script_hash_entry a h); reflexivity.
  - rewrite Add_effect. cbn [destinations].
    destruct (entries_of ds); reflexivity.
Qed.

(** A call that returns keeps the fund entries present before it at the
    front of the fund list. *)
Lemma effect_keeps_funds_prefix (c : Mutation) (f : GenesisBlockBuilder -> GenesisBlockBuilder)
    (self : GenesisBlockBuilder) :
  effect c = Some f ->
  exists added, m_initial_funds (f self) = m_initial_funds self ++ added.
Proof.
  destruct c as [v|t|b|d|a h|a h|[ds]]; cbn [effect destinations]; intros H;
    try (inversion H; subst; exists []; cbn; rewrite app_nil_r; reflexivity).
  - destruct (key_hash_entry a h) as [e|]; [|discriminate].
    inversion H; subst. exists [e]. reflexivity.
  - destruct (script_hash_entry a h) as [e|]; [|discriminate].
    inversion H; subst. exists [e]. reflexivity.
  - destruct (entries_of ds) as [es|]; [|discriminate].
    inversion H; subst. exists es. reflexivity.
Qed.

End MutationFacts.

(** ** Sequences of calls *)

Section CallSequences.

Context {C : Collaborators}.

(** X1.  No sequence of mutating calls removes, changes or reorders a fund entry
    that is already in the builder: when the sequence returns, the former
    fund list is a prefix of the new one. *)
Theorem calls_keep_existing_funds (calls : list Mutation)
    (self self' : GenesisBlockBuilder) :
  exec (for_each calls perform) self = Some self' ->
  exists added, m_initial_funds self' = m_initial_funds self ++ added.
Proof.
  revert self. induction calls as [|c calls IH]; intros self.
  - unfold exec; cbn. intros H; inversion H; subst.
    exists []. rewrite app_nil_r. reflexivity.
  - rewrite exec_for_each_cons. unfold exec at 1. rewrite perform_effect.
    destruct (effect c) as [f|] eqn:Hc; [|discriminate].
    cbn [option_map snd]. intros H.
    destruct (IH _ H) as [later Hlater].
    destruct (effect_keeps_funds_prefix c f self Hc) as [first Hfirst].
    exists (first ++ later). rewrite Hlater, Hfirst, app_assoc. reflexivity.
Qed.

(** X2.  Two calls that assign to different members of the builder can be made in
    either order: both orders return the same builder, or both abort. *)
Theorem calls_on_distinct_fields_commute (c1 c2 : Mutation) (self : GenesisBlockBuilder) :
  written_by c1 <> written_by c2 ->
  bind (perform c1) (fun _ => perform c2) self =
  bind (perform c2) (fun _ => perform c1) self.
Proof.
  intros Hfields. unfold bind. rewrite !perform_effect.
  destruct (effect c1) as [f1|] eqn:E1, (effect c2) as [f2|] eqn:E2;
    rewrite ?perform_effect, ?E1, ?E2; try reflexivity.
  enough (f2 (f1 self) = f1 (f2 self)) as -> by reflexivity.
  destruct c1 as [v1|t1|b1|d1|a1 h1|a1 h1|[ds1]],
           c2 as [v2|t2|b2|d2|a2 h2|a2 h2|[ds2]];
    cbn [written_by] in Hfields; try congruence;
    cbn [effect destinations] in E1, E2;
    repeat match type of E1 with
           | option_map _ ?o = _ => destruct o; cbn [option_map] in E1
           end;
    repeat match type of E2 with
           | option_map _ ?o = _ => destruct o; cbn [option_map] in E2
           end;
    try discriminate;
    inversion E1; inversion E2; subst; reflexivity.
Qed.

End CallSequences.

Section Overwriting.

Context {C : Collaborators}.

(** X3.  Of two calls that assign to the same header member (version, time or
    bits; [SetBits] and [SetDifficulty] both assign to bits), only the later
    one has an effect. *)
Theorem later_header_call_wins (c1 c2 : Mutation) (self : GenesisBlockBuilder) :
  written_by c1 = written_by c2 ->
  written_by c2 <> FieldFunds ->
  bind (perform c1) (fun _ => perform c2) self = perform c2 self.
Proof.
  intros Hsame Hheader.
  destruct c1 as [v1|t1|b1|d1|a1 h1|a1 h1|[ds1]],
           c2 as [v2|t2|b2|d2|a2 h2|a2 h2|[ds2]];
    cbn [written_by] in Hsame, Hheader; try congruence; reflexivity.
Qed.

End Overwriting.

(** ** Appending *)

(** X4.  The order of two appends is significant: for two different entries the
    fund list after appending them one way differs from the fund list after
    appending them the other way. *)
Theorem append_order_matters (amount1 amount2 : CAmount) (hex1 hex2 : string)
    (data1 data2 : bytes) (self : GenesisBlockBuilder) :
  ParseHex hex1 = Some data1 -> List.length data1 = 20%nat ->
  ParseHex hex2 = Some data2 -> List.length data2 = 20%nat ->
  amount1 <> amount2 \/ data1 <> data2 ->
  exists first second,
    exec (bind (AddFundsForPayToPubKeyHash amount1 hex1)
               (fun _ => AddFundsForPayToPubKeyHash amount2 hex2)) self = Some first /\
    exec (bind (AddFundsForPayToPubKeyHash amount2 hex2)
               (fun _ => AddFundsForPayToPubKeyHash amount1 hex1)) self = Some second /\
    m_initial_funds first <> m_initial_funds second.
Proof.
  intros H1 L1 H2 L2 Hdiff.
  unfold exec, bind.
  rewrite !AddFundsForPayToPubKeyHash_closed, H1, H2.
  apply Nat.eqb_eq in L1, L2. rewrite L1, L2.
  rewrite !AddFundsForPayToPubKeyHash_closed, H1, H2, L1, L2.
  eexists; eexists. split; [reflexivity|]. split; [reflexivity|].
  cbn. rewrite <- !app_assoc. intros E. apply app_inv_head in E.
  inversion E. tauto.
Qed.

Lemma append_order_matters_witness :
  exists first second,
    exec (bind (AddFundsForPayToPubKeyHash 5000 Toy.H1)
               (fun _ => AddFundsForPayToPubKeyHash 3000 Toy.H1)) Toy.empty_builder
      = Some first /\
    exec (bind (AddFundsForPayToPubKeyHash 3000 Toy.H1)
               (fun _ => AddFundsForPayToPubKeyHash 5000 Toy.H1)) Toy.empty_builder
      = Some second /\
    m_initial_funds first <> m_initial_funds second.
Proof.
  apply (append_order_matters 5000 3000 Toy.H1 Toy.H1 Toy.H1_bytes Toy.H1_bytes
           Toy.empty_builder);
    try reflexivity.
  left. lia.
Defined.

(** X5.  [Add] distributes over concatenation of collections: adding the
    concatenation is adding the first collection, then the second; adding the
    empty collection returns and changes nothing. *)
Theorem Add_of_concatenation (ds1 ds2 : list P2WPKH) (self : GenesisBlockBuilder) :
  Add (mk_Funds (ds1 ++ ds2)) self =
  bind (Add (mk_Funds ds1)) (fun _ => Add (mk_Funds ds2)) self /\
  Add (mk_Funds []) self = Some (tt, self).
Proof.
  split; [|reflexivity].
  unfold bind. rewrite !Add_effect, entries_of_app.
  destruct (entries_of ds1) as [es1|]; [|reflexivity].
  rewrite Add_effect.
  destruct (entries_of ds2) as [es2|]; [|reflexivity].
  rewrite with_funds_appended_app. reflexivity.
Qed.

(** X6.  [Add] aborts exactly when the call of [AddFundsForPayToPubKeyHash] aborts
    for at least one descriptor of the collection. *)
Theorem Add_aborts_iff_some_call_aborts (ds : list P2WPKH) (self : GenesisBlockBuilder) :
  Add (mk_Funds ds) self = None <->
  Exists (fun output =>
            AddFundsForPayToPubKeyHash (P2WPKH_amount output)
              (P2WPKH_pub_key_hash output) self = None) ds.
Proof.
  rewrite Add_effect. induction ds as [|d ds IH]; cbn [entries_of].
  - split; [discriminate | intros H; inversion H].
  - rewrite Exists_cons, <- IH, AddFundsForPayToPubKeyHash_effect.
    destruct (key_hash_entry _ _) as [e|]; destruct (entries_of ds) as [es|];
      split; try discriminate; try tauto; intros [H|H]; discriminate.
Qed.

(** ** Descriptors *)

(** X7.  A descriptor is constructed exactly when the amount is positive and the
    string has 40 characters (P2WPKH), respectively 64 (P2WSH); the
    descriptor then holds the amount and the string it was given,
    unchanged. *)
Theorem descriptor_ctor_round_trip (amount : CAmount) (hash_hex : string) :
  (forall d, P2WPKH_ctor amount hash_hex = Some d <->
             amount > 0 /\ String.length hash_hex = 40%nat /\
             P2WPKH_amount d = amount /\ P2WPKH_pub_key_hash d = hash_hex) /\
  (forall d, P2WSH_ctor amount hash_hex = Some d <->
             amount > 0 /\ String.length hash_hex = 64%nat /\
             P2WSH_amount d = amount /\ P2WSH_script_hash d = hash_hex).
Proof.
  split; intros d.
  - unfold P2WPKH_ctor.
    destruct (Z.gtb_spec amount 0) as [Hpos|Hneg]; cbn [negb].
    + destruct (Nat.eqb_spec (String.length hash_hex) 40) as [Hlen|Hlen]; cbn [negb].
      * split.
        -- intros H; inversion H; subst; cbn. repeat split; auto; lia.
        -- intros (_ & _ & Ha & Hs). destruct d; cbn in Ha, Hs; subst. reflexivity.
      * split; [discriminate | tauto].
    + split; [discriminate | intros (H & _); lia].
  - unfold P2WSH_ctor.
    destruct (Z.gtb_spec amount 0) as [Hpos|Hneg]; cbn [negb].
    + destruct (Nat.eqb_spec (String.length hash_hex) 64) as [Hlen|Hlen]; cbn [negb].
      * split.
        -- intros H; inversion H; subst; cbn. repeat split; auto; lia.
        -- intros (_ & _ & Ha & Hs). destruct d; cbn in Ha, Hs; subst. reflexivity.
      * split; [discriminate | tauto].
    + split; [discriminate | intros (H & _); lia].
Qed.

(** ** The block *)

Section BlockShape.

Context {C : Collaborators}.

(** X8.  Whenever [Build] returns, the header carries the builder's version and
    bits as they are, the time that the chain's behaviour derives from the
    builder's time, an all-zero previous-block hash and an empty signature;
    and the sole transaction has version 2 and type COINBASE. *)
Theorem Build_header_fields
    (parameters : Parameters) (self self' : GenesisBlockBuilder) (block : CBlock) :
  Build parameters self = Some (block, self') ->
  nVersion block = m_version self /\
  nTime block = CalculateProposingTimestamp parameters (m_time self) /\
  nBits block = m_bits self /\
  hashPrevBlock block = uint256_zero /\
  signature block = [] /\
  Forall (fun tx => tx_version tx = 2 /\ tx_type tx = COINBASE) (vtx block).
Proof.
  intros H. apply Build_returns in H as (-> & _ & _ & _).
  cbn. repeat split. repeat constructor.
Qed.

Lemma invariants_hold_true (coinbase : CTransactionRef) :
  invariants_hold coinbase = true <->
  prevout CTxIn_default = COutPoint_null /\
  BlockMerkleRoot [coinbase] = GetHash coinbase.
Proof.
  unfold invariants_hold.
  rewrite !andb_true_iff, !uint256_eqb_eq, Z.eqb_eq. split.
  - intros [[E1 E2] E3]. split; [|exact E3].
    destruct (prevout CTxIn_default) as [h k]; cbn in E1, E2.
    subst h k. reflexivity.
  - intros [E E3]. rewrite E. repeat split. exact E3.
Qed.

(** X9.  [Build] aborts exactly when one of the collaborators breaks its
    contract on this builder: the fresh input does not refer to the null
    previous output, or the merkle root of the block differs from the hash of
    the coinbase transaction.  The assertions on the number of transactions,
    inputs and outputs never fire. *)
Theorem Build_aborts_iff (parameters : Parameters) (self : GenesisBlockBuilder)
    (coinbase : CTransactionRef) :
  BuildCoinbaseTransaction self = Some (coinbase, self) ->
  (Build parameters self = None <->
   prevout CTxIn_default <> COutPoint_null \/
   BlockMerkleRoot [coinbase] <> GetHash coinbase).
Proof.
  rewrite BuildCoinbaseTransaction_closed. intros H; inversion H; subst; clear H.
  rewrite Build_closed.
  destruct (invariants_hold _) eqn:E.
  - apply invariants_hold_true in E as [EA EB].
    split; [discriminate | intros [H|H]; contradiction].
  - split; [intros _ | reflexivity].
    destruct (uint256_eqb (BlockMerkleRoot [coinbase_of (m_initial_funds self)])
                (GetHash (coinbase_of (m_initial_funds self)))) eqn:E3.
    + left. intros EA. apply uint256_eqb_eq in E3.
      assert (invariants_hold (coinbase_of (m_initial_funds self)) = true) as Ht
        by (apply invariants_hold_true; auto).
      congruence.
    + right. intros EB. apply uint256_eqb_eq in EB. congruence.
Qed.

(** X10.  Whether [Build] returns, and which transactions and merkle root the
    block has, depends on the fund list only: not on version, time or bits,
    and not on the chain parameters. *)
Theorem Build_transactions_depend_on_funds_only
    (parameters1 parameters2 : Parameters) (self1 self2 : GenesisBlockBuilder) :
  m_initial_funds self1 = m_initial_funds self2 ->
  (Build parameters1 self1 = None <-> Build parameters2 self2 = None) /\
  (forall block1 block2 after1 after2,
      Build parameters1 self1 = Some (block1, after1) ->
      Build parameters2 self2 = Some (block2, after2) ->
      vtx block1 = vtx block2 /\ hashMerkleRoot block1 = hashMerkleRoot block2).
Proof.
  intros Hfunds. rewrite !Build_closed, Hfunds. split.
  - destruct (invariants_hold _); split; intros H; try discriminate; reflexivity.
  - intros block1 block2 after1 after2.
    destruct (invariants_hold _); [|discriminate].
    intros H1 H2; inversion H1; inversion H2; subst.
    unfold genesis_of; cbn. rewrite Hfunds. split; reflexivity.
Qed.

(** X11.  The values of the outputs of the coinbase transaction add up to the sum
    of the amounts in the fund list. *)
Theorem Build_total_value
    (parameters : Parameters) (self self' : GenesisBlockBuilder) (block : CBlock) :
  Build parameters self = Some (block, self') ->
  exists tx, vtx block = [tx] /\
             total_value (vout tx) = total_amount (m_initial_funds self).
Proof.
  intros H. apply Build_returns in H as (-> & _ & _ & _).
  eexists; split; [reflexivity|]. cbn [coinbase_of vout].
  induction (m_initial_funds self) as [|entry funds IH]; cbn; [reflexivity|].
  unfold total_value, total_amount in IH. rewrite IH. reflexivity.
Qed.

End BlockShape.

(** ** Configuring, appending and building together *)

Section Pipelines.

Context {C : Collaborators}.

(** X12.  Setting version, time and bits before [Build] changes exactly the three
    header fields of the block: if [Build] returns on the builder as it is,
    it returns after the three setters too, with the same previous-block
    hash, merkle root, transactions and signature. *)
Theorem setters_then_Build
    (parameters : Parameters) (version : Z) (time : Time) (bits : Difficulty)
    (self after : GenesisBlockBuilder) (block : CBlock) :
  Build parameters self = Some (block, after) ->
  bind (SetVersion version) (fun _ =>
    bind (SetTime time) (fun _ =>
      bind (SetBits bits) (fun _ => Build parameters))) self =
  Some (mk_CBlock version (hashPrevBlock block) (hashMerkleRoot block)
          (CalculateProposingTimestamp parameters time) bits
          (vtx block) (signature block),
        mk_GenesisBlockBuilder version time bits (m_initial_funds self)).
Proof.
  intros H. pose proof (Build_returns _ _ _ _ H) as (-> & _ & _ & _).
  rewrite Build_closed in H.
  destruct (invariants_hold _) eqn:E; [|discriminate].
  unfold bind, SetVersion, SetTime, SetBits, modify.
  rewrite Build_closed. cbn [set_m_bits set_m_time set_m_version m_initial_funds
                             m_version m_time m_bits].
  rewrite E. reflexivity.
Qed.

(** X13.  Appending one entry before [Build] adds exactly one output, at the end,
    to the coinbase transaction, and leaves its input as it is. *)
Theorem append_then_Build_adds_last_output {K : Contract C}
    (parameters : Parameters) (amount : CAmount) (hex : string) (data : bytes)
    (self : GenesisBlockBuilder) :
  ParseHex hex = Some data ->
  exists block tx,
    Build parameters self = Some (block, self) /\ vtx block = [tx] /\
    (List.length data = 20%nat ->
     exists block' tx' self',
       bind (AddFundsForPayToPubKeyHash amount hex) (fun _ => Build parameters) self =
         Some (block', self') /\
       vtx block' = [tx'] /\ vin tx' = vin tx /\
       vout tx' = vout tx ++
         [mk_CTxOut amount (GetScriptForDestination (WitnessV0KeyHash (mk_uint160 data)))]) /\
    (List.length data = 32%nat ->
     exists block' tx' self',
       bind (AddFundsForPayToScriptHash amount hex) (fun _ => Build parameters) self =
         Some (block', self') /\
       vtx block' = [tx'] /\ vin tx' = vin tx /\
       vout tx' = vout tx ++
         [mk_CTxOut amount (GetScriptForDestination (WitnessV0ScriptHash (mk_uint256 data)))]).
Proof.
  intros Hdata.
  exists (genesis_of parameters self), (coinbase_of (m_initial_funds self)).
  split; [apply Build_succeeds|]. split; [reflexivity|].
  split; intros Hlen; apply Nat.eqb_eq in Hlen; unfold bind.
  - rewrite AddFundsForPayToPubKeyHash_closed, Hdata, Hlen, Build_succeeds.
    eexists; eexists; eexists. split; [reflexivity|].
    cbn [genesis_of vtx coinbase_of vin vout emplace_back_fund m_initial_funds].
    repeat split. cbn [coinbase_of vout]. rewrite map_app. reflexivity.
  - rewrite AddFundsForPayToScriptHash_closed, Hdata, Hlen, Build_succeeds.
    eexists; eexists; eexists. split; [reflexivity|].
    cbn [genesis_of vtx coinbase_of vin vout emplace_back_fund m_initial_funds].
    repeat split. cbn [coinbase_of vout]. rewrite map_app. reflexivity.
Qed.

(** X14.  Funds that enter the builder through [Add] come from constructed
    descriptors, whose amounts are positive.  If the amounts already in the
    builder are positive, then after [Add] of constructed descriptors every
    output of the coinbase transaction that [Build] makes has a positive
    value. *)
Theorem constructed_funds_give_positive_outputs
    (parameters : Parameters) (ds : list P2WPKH)
    (self funded after : GenesisBlockBuilder) (block : CBlock) :
  Forall (fun d => exists amount hash_hex, P2WPKH_ctor amount hash_hex = Some d) ds ->
  Forall (fun entry => fst entry > 0) (m_initial_funds self) ->
  exec (Add (mk_Funds ds)) self = Some funded ->
  Build parameters funded = Some (block, after) ->
  Forall (fun entry => fst entry > 0) (m_initial_funds funded) /\
  exists tx, vtx block = [tx] /\ Forall (fun output => nValue output > 0) (vout tx).
Proof.
  intros Hctor Hself Hadd Hbuild.
  assert (Hfunded : Forall (fun entry => fst entry > 0) (m_initial_funds funded)).
  { destruct (Add_appends_in_order ds self funded Hadd)
      as (_ & _ & _ & added & Hall & ->).
    apply Forall_app. split; [exact Hself|].
    clear Hadd. induction Hall as [|d e ds' added' Hde Hall IH]; [constructor|].
    inversion Hctor as [|? ? Hd Hrest]; subst.
    constructor; [|apply IH; exact Hrest].
    destruct Hde as (data & _ & _ & ->).
    destruct Hd as (amount & hash_hex & Hd).
    unfold P2WPKH_ctor in Hd.
    destruct (Z.gtb_spec amount 0) as [Hpos|Hneg]; cbn [negb] in Hd; [|discriminate].
    destruct (negb _); [discriminate|]. inversion Hd; subst. cbn. lia. }
  split; [exact Hfunded|].
  apply Build_returns in Hbuild as (-> & _ & _ & _).
  eexists; split; [reflexivity|]. cbn [coinbase_of vout].
  apply Forall_map. revert Hfunded. apply Forall_impl. intros entry H. exact H.
Qed.

End Pipelines.

(** ** The further properties at work on concrete builders *)

Lemma calls_keep_existing_funds_witness :
  exists self',
    exec (for_each [CallSetVersion 4;
                    CallAddFundsForPayToScriptHash (-7) (Toy.H1 ++ "aabbccddeeff001122334455");
                    CallSetDifficulty uint256_zero;
                    CallAdd (mk_Funds Toy.two_descriptors)]
                   (perform (C := Toy.collaborators))) Toy.funded_builder = Some self' /\
    exists added,
      m_initial_funds self' = m_initial_funds Toy.funded_builder ++ added.
Proof.
  eexists. split; [vm_compute; reflexivity|].
  match goal with
  | |- exists added, m_initial_funds ?after = _ =>
      apply (calls_keep_existing_funds (C := Toy.collaborators)
               [CallSetVersion 4;
                CallAddFundsForPayToScriptHash (-7) (Toy.H1 ++ "aabbccddeeff001122334455");
                CallSetDifficulty uint256_zero;
                CallAdd (mk_Funds Toy.two_descriptors)]
               Toy.funded_builder after)
  end.
  vm_compute; reflexivity.
Defined.

Lemma calls_on_distinct_fields_commute_witness :
  bind (perform (C := Toy.collaborators) (CallSetTime 7))
       (fun _ => perform (C := Toy.collaborators) (CallAdd (mk_Funds Toy.two_descriptors)))
       Toy.empty_builder =
  bind (perform (C := Toy.collaborators) (CallAdd (mk_Funds Toy.two_descriptors)))
       (fun _ => perform (C := Toy.collaborators) (CallSetTime 7))
       Toy.empty_builder.
Proof.
  apply (calls_on_distinct_fields_commute (C := Toy.collaborators)
           (CallSetTime 7) (CallAdd (mk_Funds Toy.two_descriptors)) Toy.empty_builder).
  discriminate.
Defined.

Lemma later_header_call_wins_witness :
  bind (perform (C := Toy.collaborators) (CallSetBits 5))
       (fun _ => perform (C := Toy.collaborators) (CallSetDifficulty uint256_zero))
       Toy.funded_builder =
  perform (C := Toy.collaborators) (CallSetDifficulty uint256_zero) Toy.funded_builder.
Proof.
  apply (later_header_call_wins (C := Toy.collaborators)
           (CallSetBits 5) (CallSetDifficulty uint256_zero) Toy.funded_builder).
  - reflexivity.
  - discriminate.
Defined.

Lemma Build_header_fields_witness :
  nVersion Toy.funded_block = 2 /\
  nTime Toy.funded_block = 1500000000 /\
  nBits Toy.funded_block = 486604799 /\
  hashPrevBlock Toy.funded_block = uint256_zero /\
  signature Toy.funded_block = [] /\
  Forall (fun tx => tx_version tx = 2 /\ tx_type tx = COINBASE) (vtx Toy.funded_block).
Proof.
  apply (Build_header_fields (C := Toy.collaborators)
           tt Toy.funded_builder Toy.funded_builder Toy.funded_block).
  vm_compute; reflexivity.
Defined.

Lemma Build_aborts_iff_witness :
  Build (C := Faulty.collaborators) tt Toy.funded_builder = None.
Proof.
  apply (proj2 (Build_aborts_iff (C := Faulty.collaborators) tt Toy.funded_builder
                  (coinbase_of (C := Faulty.collaborators)
                     (m_initial_funds Toy.funded_builder))
                  ltac:(vm_compute; reflexivity))).
  right. intros E. vm_compute in E. discriminate E.
Defined.

Lemma Build_transactions_depend_on_funds_only_witness :
  exists block after,
    Build (C := Toy.collaborators) tt (set_m_version 9 (set_m_time 0 Toy.funded_builder))
      = Some (block, after) /\
    nVersion block = 9 /\
    vtx Toy.funded_block = vtx block /\
    hashMerkleRoot Toy.funded_block = hashMerkleRoot block.
Proof.
  eexists; eexists. split; [vm_compute; reflexivity|].
  split; [reflexivity|].
  match goal with
  | |- vtx _ = vtx ?block /\ _ =>
      apply (proj2 (Build_transactions_depend_on_funds_only (C := Toy.collaborators)
                      tt tt Toy.funded_builder
                      (set_m_version 9 (set_m_time 0 Toy.funded_builder)) eq_refl)
               Toy.funded_block block Toy.funded_builder
               (set_m_version 9 (set_m_time 0 Toy.funded_builder)))
  end; vm_compute; reflexivity.
Defined.

Lemma Build_total_value_witness :
  exists tx, vtx Toy.funded_block = [tx] /\ total_value (vout tx) = 8000.
Proof.
  apply (Build_total_value (C := Toy.collaborators)
           tt Toy.funded_builder Toy.funded_builder Toy.funded_block).
  vm_compute; reflexivity.
Defined.

Lemma setters_then_Build_witness :
  bind (SetVersion 7) (fun _ =>
    bind (SetTime 1600000000) (fun _ =>
      bind (SetBits 1) (fun _ => Build (C := Toy.collaborators) tt))) Toy.funded_builder =
  Some (mk_CBlock 7 (hashPrevBlock Toy.funded_block) (hashMerkleRoot Toy.funded_block)
          1600000000 1 (vtx Toy.funded_block) (signature Toy.funded_block),
        mk_GenesisBlockBuilder 7 1600000000 1 (m_initial_funds Toy.funded_builder)).
Proof.
  apply (setters_then_Build (C := Toy.collaborators) tt 7 1600000000 1
           Toy.funded_builder Toy.funded_builder Toy.funded_block).
  vm_compute; reflexivity.
Defined.

Lemma append_then_Build_adds_last_output_witness :
  exists block tx,
    Build (C := Toy.collaborators) tt Toy.funded_builder = Some (block, Toy.funded_builder) /\
    vtx block = [tx] /\
    exists block' tx' self',
      bind (AddFundsForPayToPubKeyHash 42 Toy.H1)
           (fun _ => Build (C := Toy.collaborators) tt) Toy.funded_builder =
        Some (block', self') /\
      vtx block' = [tx'] /\ vin tx' = vin tx /\
      vout tx' = vout tx ++
        [mk_CTxOut 42 (Toy.script_for (WitnessV0KeyHash (mk_uint160 Toy.H1_bytes)))].
Proof.
  assert (K : Contract Toy.collaborators) by (split; reflexivity).
  destruct (append_then_Build_adds_last_output (C := Toy.collaborators) (K := K)
              tt 42 Toy.H1 Toy.H1_bytes Toy.funded_builder eq_refl)
    as (block & tx & Hbuild & Hvtx & Hkey & _).
  exists block, tx. split; [exact Hbuild|]. split; [exact Hvtx|].
  apply Hkey. reflexivity.
Defined.

Lemma constructed_funds_give_positive_outputs_witness :
  Forall (fun entry => fst entry > 0) (m_initial_funds Toy.funded_builder) /\
  exists tx, vtx Toy.funded_block = [tx] /\
             Forall (fun output => nValue output > 0) (vout tx).
Proof.
  apply (constructed_funds_give_positive_outputs (C := Toy.collaborators)
           tt Toy.two_descriptors Toy.empty_builder Toy.funded_builder
           Toy.funded_builder Toy.funded_block).
  - repeat constructor.
    + exists 5000, Toy.H1. reflexivity.
    + exists 3000, Toy.H2. reflexivity.
  - constructor.
  - vm_compute; reflexivity.
  - vm_compute; reflexivity.
Defined.
